(** * scripts/search.py: the web search helper

    A shallow embedding of [scripts/search.py] and the proofs of its
    command-line contract.

    The script joins its command-line arguments into one query, hands the
    query to the [ddgs] client ([DDGS().text]), reshapes every returned
    record into a dict with the keys title, url and snippet, and prints
    the list with [json.dumps].  Failures are printed as a dict with the
    one key error and end the process with [sys.exit(1)].

    Layout: Python strings ([PyStr]), exceptions ([Exc]), Python values
    and [json.dumps] ([Json]), the script itself ([Search]), concrete
    providers used by the examples ([Providers]), then the lemmas. *)

From Stdlib Require Import List String Ascii ZArith NArith Bool Lia.
From Stdlib Require Import DecimalString.
Import ListNotations.

Local Open Scope list_scope.
Local Open Scope string_scope.
Set Warnings "-register-all".

(** ** Python strings *)

Module PyStr.

(** A Python [str] is a sequence of Unicode code points. *)
Definition codepoint := N.
Definition str := list codepoint.

(** An ASCII literal of the source, as a [str]. *)
Definition lit (s : string) : str :=
  map N_of_ascii (list_ascii_of_string s).

Definition eqb (a b : str) : bool :=
  if list_eq_dec N.eq_dec a b then true else false.

(** [sep.join(l)] *)
Fixpoint join (sep : str) (l : list str) : str :=
  match l with
  | [] => []
  | x :: rest =>
      match rest with
      | [] => x
      | _ :: _ => (x ++ sep ++ join sep rest)%list
      end
  end.

Definition SPACE : codepoint := 32%N.

End PyStr.

(** ** Exceptions *)

Module Exc.
Import PyStr.

(** What a [raise] carries.  [Exception msg] is an instance of class
    [Exception] (or of a subclass) with [str(e) = msg]; [SystemExit] is
    what [sys.exit] raises; [BaseException] stands for the remaining
    classes outside [Exception] ([KeyboardInterrupt], [GeneratorExit]). *)
Inductive exn : Type :=
| Exception (msg : str)
| SystemExit (code : Z)
| BaseException (msg : str).

Inductive result (A : Type) : Type :=
| Ok (a : A)
| Raise (e : exn).
Arguments Ok {A} a.
Arguments Raise {A} e.

Definition rbind {A B} (r : result A) (k : A -> result B) : result B :=
  match r with
  | Ok a => k a
  | Raise e => Raise e
  end.

End Exc.

(** ** Python values and [json.dumps] *)

Module Json.
Import PyStr Exc.

(** What the interpreter that runs the script fixes.
    [max_str_digits] is [sys.get_int_max_str_digits()]: the longest
    decimal text an [int] may be turned into, 4300 by default, 0 for no
    limit (CPython accepts no other value below 640).
    [spare_depth] is what is left of the recursion limit for
    [json.dumps] beyond the two levels of the script's own documents, a
    list of dicts: the number of containers it may still enter inside
    the value of a field (just under a thousand by default). *)
Record interpreter : Type := Interpreter {
  max_str_digits : N;
  spare_depth : nat
}.

(** The values the provider's records are made of: what a JSON document
    decodes to in Python, numbers being [int]s.  A [dict] keeps its
    insertion order, which [json.dumps] prints; the first binding of a
    key is the one a lookup sees. *)
Inductive value : Type :=
| PyNone
| PyBool (b : bool)
| PyInt (z : Z)
| PyStr (s : str)
| PyList (l : list value)
| PyDict (d : list (str * value)).

Definition dict := list (str * value).

(** [type(v).__name__] *)
Definition type_name (v : value) : string :=
  match v with
  | PyNone => "NoneType"
  | PyBool _ => "bool"
  | PyInt _ => "int"
  | PyStr _ => "str"
  | PyList _ => "list"
  | PyDict _ => "dict"
  end.

(** [k in d] and [d[k]] in one: the value bound to [k], if any. *)
Fixpoint lookup (d : dict) (k : str) : option value :=
  match d with
  | [] => None
  | (k', v) :: rest => if eqb k' k then Some v else lookup rest k
  end.

(** [d.get(k, default)] *)
Definition dict_get (d : dict) (k : str) (default : value) : value :=
  match lookup d k with
  | Some v => v
  | None => default
  end.

(** *** The encoder: [json.dumps] with its defaults
    ([ensure_ascii=True], separators [", "] and [": "]). *)

Definition DQUOTE : ascii := "034"%char.
Definition BACKSLASH : ascii := "092"%char.

Definition chr (a : ascii) : string := String a EmptyString.

(** One lower-case hexadecimal digit, for [n < 16]. *)
Definition hex_digit (n : N) : ascii :=
  if (n <? 10)%N then ascii_of_N (48 + n) else ascii_of_N (87 + n).

(** ['{0:04x}'.format(n)], for [n < 0x10000]. *)
Definition hex4 (n : N) : string :=
  String (hex_digit (N.land (N.shiftr n 12) 15))
    (String (hex_digit (N.land (N.shiftr n 8) 15))
       (String (hex_digit (N.land (N.shiftr n 4) 15))
          (String (hex_digit (N.land n 15)) EmptyString))).

Definition u_escape (n : N) : string :=
  String BACKSLASH (String "u"%char (hex4 n)).

(** [replace] of [py_encode_basestring_ascii]: the text that stands for
    one code point.  Printable ASCII other than the quote and the
    backslash stands for itself. *)
Definition escape (c : codepoint) : string :=
  if (c =? 34)%N then String BACKSLASH (chr DQUOTE)
  else if (c =? 92)%N then String BACKSLASH (chr BACKSLASH)
  else if (c =? 8)%N then String BACKSLASH "b"
  else if (c =? 12)%N then String BACKSLASH "f"
  else if (c =? 10)%N then String BACKSLASH "n"
  else if (c =? 13)%N then String BACKSLASH "r"
  else if (c =? 9)%N then String BACKSLASH "t"
  else if ((32 <=? c) && (c <=? 126))%N then chr (ascii_of_N c)
  else if (c <? 65536)%N then u_escape c
  else
    let n := (c - 65536)%N in
    let s1 := N.lor 55296 (N.land (N.shiftr n 10) 1023) in
    let s2 := N.lor 56320 (N.land n 1023) in
    u_escape s1 ++ u_escape s2.

Definition encode_str (s : str) : string :=
  chr DQUOTE ++ String.concat "" (map escape s) ++ chr DQUOTE.

(** The decimal text of an [int]. *)
Definition render_int (z : Z) : string :=
  NilZero.string_of_int (Z.to_int z).

(** [z] has more than [limit] decimal digits, the sign apart. *)
Definition too_long (limit : N) (z : Z) : bool :=
  (10 ^ Z.of_N limit <=? Z.abs z)%Z.

Definition int_limit_error (limit : N) : exn :=
  Exception
    (lit ("Exceeds the limit (" ++ render_int (Z.of_N limit)
          ++ " digits) for integer string conversion; "
          ++ "use sys.set_int_max_str_digits() to increase the limit")).

(** [int.__repr__]: a [ValueError] beyond the digit limit, when there is
    one. *)
Definition encode_int (py : interpreter) (z : Z) : result string :=
  if (0 <? max_str_digits py)%N && too_long (max_str_digits py) z
  then Raise (int_limit_error (max_str_digits py))
  else Ok (render_int z).

Definition recursion_error : exn :=
  Exception
    (lit "maximum recursion depth exceeded while encoding a JSON object").

(** The encoder, with room for [depth] more nested containers: items and
    fields are encoded in order, and the first one that raises ends the
    encoding; entering a list or a dict with no room left is a
    [RecursionError]. *)
Fixpoint dumps_at (py : interpreter) (depth : nat) (v : value) {struct v}
  : result string :=
  match v with
  | PyNone => Ok "null"
  | PyBool true => Ok "true"
  | PyBool false => Ok "false"
  | PyInt z => encode_int py z
  | PyStr s => Ok (encode_str s)
  | PyList l =>
      match depth with
      | O => Raise recursion_error
      | S depth' =>
          rbind
            ((fix items (l : list value) : result (list string) :=
                match l with
                | [] => Ok []
                | x :: rest =>
                    rbind (dumps_at py depth' x) (fun t =>
                    rbind (items rest) (fun ts => Ok (t :: ts)))
                end) l)
            (fun ts => Ok ("[" ++ String.concat ", " ts ++ "]"))
      end
  | PyDict d =>
      match depth with
      | O => Raise recursion_error
      | S depth' =>
          rbind
            ((fix fields (d : list (str * value)) : result (list string) :=
                match d with
                | [] => Ok []
                | (k, x) :: rest =>
                    rbind (dumps_at py depth' x) (fun t =>
                    rbind (fields rest) (fun ts =>
                    Ok ((encode_str k ++ ": " ++ t) :: ts)))
                end) d)
            (fun ts => Ok ("{" ++ String.concat ", " ts ++ "}"))
      end
  end.

(** [json.dumps(v)] *)
Definition dumps (py : interpreter) (v : value) : result string :=
  dumps_at py (2 + spare_depth py) v.

(** The text [json.dumps] returns for [v] when it returns. *)
Fixpoint render (v : value) : string :=
  match v with
  | PyNone => "null"
  | PyBool true => "true"
  | PyBool false => "false"
  | PyInt z => render_int z
  | PyStr s => encode_str s
  | PyList l => "[" ++ String.concat ", " (map render l) ++ "]"
  | PyDict d =>
      "{" ++ String.concat ", "
               (map (fun '(k, x) => encode_str k ++ ": " ++ render x) d)
          ++ "}"
  end.

(** A literal of the expected output, written with ['] for the double
    quote. *)
Definition literal (s : string) : string :=
  string_of_list_ascii
    (map (fun a => if Ascii.eqb a "'"%char then DQUOTE else a)
         (list_ascii_of_string s)).

End Json.

(** ** The script *)

Module Search.
Import PyStr Exc Json.

(** *** The provider *)

(** What [for r in results] sees of the object the provider returned: the
    items it yields, in order, until it is exhausted or raises. *)
Inductive pyiter : Type :=
| Stop
| Yield (r : value) (rest : pyiter)
| Raises (e : exn).

(** [DDGS().text(query, max_results=n)] either returns or raises. *)
Inductive response : Type :=
| Returns (results : pyiter)
| Fails (e : exn).

Definition provider := str -> Z -> response.

(** The items of [l], then whatever [tail] does. *)
Fixpoint yields (l : list value) (tail : pyiter) : pyiter :=
  match l with
  | [] => tail
  | r :: rest => Yield r (yields rest tail)
  end.

(** A list, as the provider returns it when all goes well. *)
Definition iter_of (l : list value) : pyiter := yields l Stop.

(** *** The process state and its monad *)

(** [printed]: the documents written to standard output, oldest first;
    every write of the script is [print(json.dumps(v))], and the text
    written for [v] is [render v].
    [calls]: the provider calls made so far, oldest first. *)
Record world : Type := World {
  printed : list value;
  calls : list (str * Z)
}.

Definition M (A : Type) : Type := world -> result A * world.

Definition ret {A} (a : A) : M A := fun w => (Ok a, w).

Definition bind {A B} (m : M A) (k : A -> M B) : M B := fun w =>
  match m w with
  | (Ok a, w') => k a w'
  | (Raise e, w') => (Raise e, w')
  end.

Definition raise {A} (e : exn) : M A := fun w => (Raise e, w).

Definition lift {A} (r : result A) : M A := fun w => (r, w).

Notation "x <- m ;; k" := (bind m (fun x => k))
  (at level 61, m at next level, right associativity).
Notation "m ;; k" := (bind m (fun _ => k))
  (at level 61, right associativity).

(** [try: body except Exception as e: handler(str(e))] *)
Definition try_except_Exception {A} (body : M A) (handler : str -> M A)
  : M A := fun w =>
  match body w with
  | (Raise (Exception msg), w') => handler msg w'
  | other => other
  end.

(** [print(json.dumps(v))]: nothing is written when [json.dumps]
    raises. *)
Definition print_json (py : interpreter) (v : value) : M unit := fun w =>
  match dumps py v with
  | Ok _ =>
      (Ok tt, {| printed := (printed w ++ [v])%list; calls := calls w |})
  | Raise e => (Raise e, w)
  end.

(** [sys.exit(code)] *)
Definition sys_exit {A} (code : Z) : M A := raise (SystemExit code).

(** *** [search] *)

(** [r.get(k, default)]: a dict answers, any other value has no
    attribute [get]. *)
Definition attribute_error (r : value) : exn :=
  Exception
    (lit ("'" ++ type_name r ++ "' object has no attribute 'get'")).

Definition get (r : value) (k : str) (default : value) : result value :=
  match r with
  | PyDict d => Ok (dict_get d k default)
  | _ => Raise (attribute_error r)
  end.

(** The dict display of the comprehension, for one record [r]. *)
Definition record (r : value) : result value :=
  rbind (get r (lit "title") (PyStr (lit ""))) (fun title =>
  rbind (get r (lit "href") (PyStr (lit ""))) (fun url =>
  rbind (get r (lit "body") (PyStr (lit ""))) (fun snippet =>
  Ok (PyDict [(lit "title", title);
              (lit "url", url);
              (lit "snippet", snippet)])))).

(** [[record(r) for r in results]]: the list is built item by item and
    is lost when the iteration or a record raises. *)
Fixpoint comprehension (results : pyiter) : result (list value) :=
  match results with
  | Stop => Ok []
  | Raises e => Raise e
  | Yield r rest =>
      rbind (record r) (fun x =>
      rbind (comprehension rest) (fun xs =>
      Ok (x :: xs)))
  end.

Definition default_max_results : Z := 6.

(** The exit status of the process for [sys.exit(code)] with an [int],
    on Linux: the low eight bits of the code, and 255 for a code that does
    not fit a C [long]. *)
Definition exit_status (code : Z) : Z :=
  if ((- 2 ^ 63 <=? code) && (code <? 2 ^ 63))%Z
  then (code mod 256)%Z
  else 255%Z.

Section Script.

(** The interpreter that runs the script. *)
Variable py : interpreter.

(** [DDGS().text], the external search client. *)
Variable text : provider.

Definition call_text (query : str) (max_results : Z) : M pyiter :=
  fun w =>
    let w' := {| printed := printed w;
                 calls := (calls w ++ [(query, max_results)])%list |} in
    match text query max_results with
    | Returns results => (Ok results, w')
    | Fails e => (Raise e, w')
    end.

Definition search (query : str) (max_results : Z) : M (list value) :=
  try_except_Exception
    (results <- call_text query max_results ;;
     lift (comprehension results))
    (fun e =>
       print_json py (PyDict [(lit "error", PyStr e)]) ;;
       sys_exit 1).

(** The body of the script's main guard, on [sys.argv]. *)
Definition main (argv : list str) : M unit :=
  (if (Z.of_nat (List.length argv) <? 2)%Z
   then print_json py (PyDict [(lit "error",
                                PyStr (lit "No query provided"))]) ;;
        sys_exit 1
   else ret tt) ;;
  let query := join (lit " ") (skipn 1 argv) in
  results <- search query default_max_results ;;
  print_json py (PyList results).

(** *** The process as its caller sees it *)

(** A process ends with an exit code: 0 when the script runs to its
    end, the exit status of the code of [sys.exit] otherwise; any other
    exception that reaches the top ends it with a traceback on standard
    error. *)
Inductive status : Type :=
| Exit (code : Z)
| Traceback (e : exn).

Record process : Type := Process {
  output : list value;
  queries : list (str * Z);
  ended : status
}.

Definition run (argv : list str) : process :=
  match main argv {| printed := []; calls := [] |} with
  | (Ok _, w) => Process (printed w) (calls w) (Exit 0)
  | (Raise (SystemExit code), w) =>
      Process (printed w) (calls w) (Exit (exit_status code))
  | (Raise e, w) => Process (printed w) (calls w) (Traceback e)
  end.

End Script.

(** The text on standard output: [print] ends every document with a
    newline. *)
Definition NEWLINE : string := chr "010"%char.

Definition stdout (p : process) : string :=
  String.concat "" (map (fun v => render v ++ NEWLINE) (output p)).

End Search.

(** ** Vocabulary of the contract *)

Module Contract.
Import PyStr Exc Json Search.

(** The failure document. *)
Definition error_payload (msg : str) : value :=
  PyDict [(lit "error", PyStr msg)].

(** A search record with the given field values. *)
Definition search_record (title url snippet : value) : value :=
  PyDict [(lit "title", title); (lit "url", url); (lit "snippet", snippet)].

(** The search record of a provider record that is a dict. *)
Definition normalize (d : dict) : value :=
  search_record (dict_get d (lit "title") (PyStr (lit "")))
                (dict_get d (lit "href") (PyStr (lit "")))
                (dict_get d (lit "body") (PyStr (lit ""))).

Definition is_str (v : value) : bool :=
  match v with
  | PyStr _ => true
  | _ => false
  end.

Definition is_dict (v : value) : bool :=
  match v with
  | PyDict _ => true
  | _ => false
  end.

(** [x] is what the output carries for the source field [k] of [d]: the
    provider's value when the field is there, the empty string when it
    is absent. *)
Definition from_field (d : dict) (k : str) (x : value) : Prop :=
  match lookup d k with
  | Some v => x = v
  | None => x = PyStr (lit "")
  end.

(** The keys of a dict, in order. *)
Definition keys (v : value) : list str :=
  match v with
  | PyDict d => map fst d
  | _ => []
  end.

(** The query the script builds from the arguments after its name. *)
Definition query_of (args : list str) : str := join (lit " ") args.

(** *** Vocabulary of the further properties *)

(** The exceptions [except Exception] catches. *)
Definition is_Exception (e : exn) : bool :=
  match e with
  | Exception _ => true
  | _ => false
  end.

(** How the process ends when [e] reaches the top of the script. *)
Definition uncaught (e : exn) : status :=
  match e with
  | SystemExit code => Exit (exit_status code)
  | _ => Traceback e
  end.

(** [json.dumps] returns on [v]. *)
Definition accepts (py : interpreter) (v : value) : bool :=
  match dumps py v with
  | Ok _ => true
  | Raise _ => false
  end.



(** Printable ASCII: the characters from the space to the tilde. *)
Definition printable (a : ascii) : bool :=
  ((32 <=? N_of_ascii a) && (N_of_ascii a <=? 126))%N.

Fixpoint all_chars (p : ascii -> bool) (s : string) : bool :=
  match s with
  | EmptyString => true
  | String a rest => p a && all_chars p rest
  end.

(** The code points [json.dumps] writes as they are. *)
Definition plain (c : codepoint) : bool :=
  ((32 <=? c) && (c <=? 126) && negb (c =? 34) && negb (c =? 92))%N.

(** A [str] of ASCII code points, as text. *)
Definition ascii_text (s : str) : string :=
  string_of_list_ascii (map ascii_of_N s).

End Contract.

(** ** Concrete providers and command lines *)

Module Providers.
Import PyStr Exc Json Search Contract.

Definition prog : str := lit "scripts/search.py".

(** CPython as it comes: at most 4300 digits, and a recursion limit of
    1000 of which some 990 levels are left for the value of a field. *)
Definition cpython : interpreter :=
  {| max_str_digits := 4300; spare_depth := 990 |}.

(** The provider of the scenario: one record for the query cats. *)
Definition cats_record : dict :=
  [(lit "title", PyStr (lit "A"));
   (lit "href", PyStr (lit "http://a"));
   (lit "body", PyStr (lit "b1"))].

Definition cats : provider := fun query max_results =>
  if PyStr.eqb query (lit "cats") && (max_results =? 6)%Z
  then Returns (iter_of [PyDict cats_record])
  else Fails (Exception (lit "unexpected call")).

(** A provider that answers with seven records whatever the limit. *)
Definition seven_records : list dict :=
  map (fun t => [(lit "title", PyStr (lit t))])
      ["r1"; "r2"; "r3"; "r4"; "r5"; "r6"; "r7"].

Definition seven : provider := fun _ _ =>
  Returns (iter_of (map PyDict seven_records)).

(** A provider whose record has a null title and no body. *)
Definition null_title_record : dict :=
  [(lit "title", PyNone); (lit "href", PyStr (lit "http://a"))].

Definition null_title : provider := fun _ _ =>
  Returns (iter_of [PyDict null_title_record]).

(** A provider whose call raises. *)
Definition timed_out : provider := fun _ _ =>
  Fails (Exception (lit "operation timed out")).

(** A provider whose result raises while it is read, after one record. *)
Definition lazy_failure : provider := fun _ _ =>
  Returns (Yield (PyDict cats_record)
             (Raises (Exception (lit "connection reset")))).


(** A provider that echoes the query as the title of its one record. *)
Definition echo : provider := fun query _ =>
  Returns (iter_of [PyDict [(lit "title", PyStr query)]]).

(** A provider whose call is interrupted from the keyboard. *)
Definition interrupted : provider := fun _ _ =>
  Fails (BaseException (lit "KeyboardInterrupt")).

(** A provider whose result ends the process while it is read, after one
    record. *)
Definition exits : provider := fun _ _ =>
  Returns (yields [PyDict cats_record] (Raises (SystemExit 3))).


(** A provider whose record has a number of 4301 digits for title. *)
Definition huge_title_record : dict :=
  [(lit "title", PyInt (10 ^ 4300));
   (lit "href", PyStr (lit "http://a"));
   (lit "body", PyStr (lit "b1"))].

Definition huge_title : provider := fun _ _ =>
  Returns (iter_of [PyDict huge_title_record]).

(** A provider whose result ends the process with a code above 255. *)
Definition exits_256 : provider := fun _ _ => Fails (SystemExit 256).

(** A provider that finds nothing. *)
Definition nothing : provider := fun _ _ => Returns (iter_of []).

(** A provider whose first bad item is followed by more trouble. *)
Definition doubly_malformed : provider := fun _ _ =>
  Returns (yields [PyDict cats_record]
             (Yield (PyInt 7) (Yield PyNone (Raises (SystemExit 3))))).

End Providers.

Import PyStr Exc Json Search Contract.

(** ** Strings *)

Lemma eqb_eq (a b : str) : PyStr.eqb a b = true <-> a = b.
Proof.
  unfold PyStr.eqb. destruct (list_eq_dec N.eq_dec a b); split; congruence.
Qed.

Lemma join_cons (sep a b : str) (l : list str) :
  join sep (a :: b :: l) = (a ++ sep ++ join sep (b :: l))%list.
Proof. reflexivity. Qed.

(** [join] puts the separator before every element but the first. *)
Lemma join_spec (sep a : str) (l : list str) :
  join sep (a :: l) = (a ++ List.concat (map (fun x => sep ++ x) l))%list.
Proof.
  revert a. induction l as [|b l IH]; intro a.
  - cbn. now rewrite app_nil_r.
  - rewrite join_cons, IH. cbn [map List.concat].
    now rewrite <- app_assoc.
Qed.

Lemma join_empty_strings (sep : str) (n : nat) :
  join sep (repeat [] (S n)) = List.concat (repeat sep n).
Proof.
  cbn [repeat]. rewrite join_spec. cbn [app].
  induction n as [|n IH]; [reflexivity|].
  cbn [repeat map List.concat]. now rewrite app_nil_r, IH.
Qed.

(** ** The comprehension *)

Lemma record_dict (d : dict) : record (PyDict d) = Ok (normalize d).
Proof. reflexivity. Qed.

Lemma record_not_dict (r : value) :
  is_dict r = false -> record r = Raise (attribute_error r).
Proof. destruct r; cbn; congruence. Qed.

Lemma record_Ok_inv (r o : value) :
  record r = Ok o -> exists d, r = PyDict d /\ o = normalize d.
Proof.
  destruct r; try discriminate.
  rewrite record_dict. intros [= <-]. eauto.
Qed.

Lemma comprehension_yield (r : value) (rest : pyiter) :
  comprehension (Yield r rest) =
  rbind (record r) (fun x =>
  rbind (comprehension rest) (fun xs => Ok (x :: xs))).
Proof. reflexivity. Qed.

(** A list of dict records is normalized record by record. *)
Lemma comprehension_dicts (ds : list dict) :
  comprehension (iter_of (map PyDict ds)) = Ok (map normalize ds).
Proof.
  unfold iter_of.
  induction ds as [|d ds IH]; [reflexivity|].
  cbn [map yields]. rewrite comprehension_yield, record_dict.
  cbn [rbind]. now rewrite IH.
Qed.

(** Conversely, the comprehension only completes on a list of dicts. *)
Lemma comprehension_Ok_inv (it : pyiter) :
  forall out, comprehension it = Ok out ->
  exists ds, it = iter_of (map PyDict ds) /\ out = map normalize ds.
Proof.
  induction it as [|r rest IH|e]; intros out H.
  - injection H as <-. now exists [].
  - rewrite comprehension_yield in H.
    destruct (record r) as [o|e] eqn:Hr; [|discriminate].
    destruct (record_Ok_inv _ _ Hr) as (d & -> & ->).
    cbn [rbind] in H.
    destruct (comprehension rest) as [xs|e] eqn:Hrest; [|discriminate].
    injection H as <-.
    destruct (IH xs eq_refl) as (ds & -> & ->).
    now exists (d :: ds).
  - discriminate.
Qed.

(** An exception of the iteration, after any number of good records. *)
Lemma comprehension_raises (ds : list dict) (e : exn) :
  comprehension (yields (map PyDict ds) (Raises e)) = Raise e.
Proof.
  induction ds as [|d ds IH]; [reflexivity|].
  cbn [map yields]. rewrite comprehension_yield, record_dict.
  cbn [rbind]. now rewrite IH.
Qed.

(** An item without [get], after any number of good records. *)
Lemma comprehension_bad_item (ds : list dict) (r : value) (rest : pyiter) :
  is_dict r = false ->
  comprehension (yields (map PyDict ds) (Yield r rest)) =
  Raise (attribute_error r).
Proof.
  intro Hr.
  induction ds as [|d ds IH].
  - cbn [map yields]. rewrite comprehension_yield.
    now rewrite (record_not_dict r Hr).
  - cbn [map yields]. rewrite comprehension_yield, record_dict.
    cbn [rbind]. now rewrite IH.
Qed.

(** The comprehension raises in these two ways only. *)
Lemma comprehension_Raise_inv (it : pyiter) (e : exn) :
  comprehension it = Raise e ->
  exists ds,
    it = yields (map PyDict ds) (Raises e) \/
    exists r rest,
      it = yields (map PyDict ds) (Yield r rest) /\
      is_dict r = false /\ e = attribute_error r.
Proof.
  induction it as [|r rest IH|e']; intro H.
  - discriminate.
  - rewrite comprehension_yield in H.
    destruct (is_dict r) eqn:Hr.
    + destruct r; try discriminate.
      rewrite record_dict in H. cbn [rbind] in H.
      destruct (comprehension rest) as [xs|e1] eqn:Hrest; [discriminate|].
      injection H as ->.
      destruct (IH eq_refl) as (ds & [-> | (r & rest' & -> & Hd & He)]).
      * exists (d :: ds). now left.
      * exists (d :: ds). right. exists r, rest'. auto.
    + rewrite (record_not_dict r Hr) in H. injection H as <-.
      exists []. right. exists r, rest. auto.
  - injection H as ->. exists []. now left.
Qed.

(** ** The encoder *)

(** Induction on values, with the elements of lists and dicts. *)
Lemma value_ind_nested (P : value -> Prop) :
  P PyNone ->
  (forall b, P (PyBool b)) ->
  (forall z, P (PyInt z)) ->
  (forall s, P (PyStr s)) ->
  (forall l, Forall P l -> P (PyList l)) ->
  (forall d, Forall (fun kv => P (snd kv)) d -> P (PyDict d)) ->
  forall v, P v.
Proof.
  intros HN HB HI HS HL HD.
  fix IH 1. intros [ | b | z | s | l | d].
  - exact HN.
  - apply HB.
  - apply HI.
  - apply HS.
  - apply HL. induction l as [|x l IHl]; constructor; [apply IH | exact IHl].
  - apply HD. induction d as [|[k x] d IHd]; constructor;
      [apply IH | exact IHd].
Qed.

Lemma encode_int_Ok (py : interpreter) (z : Z) (s : string) :
  encode_int py z = Ok s -> s = render_int z.
Proof.
  unfold encode_int.
  destruct ((0 <? max_str_digits py)%N && too_long (max_str_digits py) z);
    [discriminate | now intros [= <-]].
Qed.

(** What [json.dumps] returns is the text [render] gives. *)
Lemma dumps_at_Ok (py : interpreter) (v : value) :
  forall (depth : nat) (s : string),
    dumps_at py depth v = Ok s -> s = render v.
Proof.
  induction v as [ | b | z | x | l IHl | d IHd] using value_ind_nested;
    intros depth s H; cbn [dumps_at] in H.
  - now injection H as <-.
  - destruct b; now injection H as <-.
  - now apply (encode_int_Ok py).
  - now injection H as <-.
  - destruct depth as [|depth]; [discriminate|].
    match type of H with
    | rbind ?items _ = _ => destruct items as [ts|e] eqn:Hts
    end; [|discriminate].
    assert (E : ts = map render l).
    { clear H. revert ts Hts.
      induction IHl as [|x l Hx _ IH]; intros ts Hts.
      - now injection Hts as <-.
      - destruct (dumps_at py depth x) as [t|e] eqn:Ht; [|discriminate].
        cbn [rbind] in Hts.
        match type of Hts with
        | rbind ?items _ = _ => destruct items as [ts'|e] eqn:Hts'
        end; [|discriminate].
        cbn [rbind] in Hts. injection Hts as <-.
        cbn [map]. now rewrite (Hx _ _ Ht), (IH _ eq_refl). }
    cbn [rbind] in H. injection H as <-. now rewrite E.
  - destruct depth as [|depth]; [discriminate|].
    match type of H with
    | rbind ?fields _ = _ => destruct fields as [ts|e] eqn:Hts
    end; [|discriminate].
    assert (E : ts = map (fun '(k, x) => encode_str k ++ ": " ++ render x) d).
    { clear H. revert ts Hts.
      induction IHd as [|[k x] d Hx _ IH]; intros ts Hts.
      - now injection Hts as <-.
      - cbn [snd] in Hx.
        destruct (dumps_at py depth x) as [t|e] eqn:Ht; [|discriminate].
        cbn [rbind] in Hts.
        match type of Hts with
        | rbind ?fields _ = _ => destruct fields as [ts'|e] eqn:Hts'
        end; [|discriminate].
        cbn [rbind] in Hts. injection Hts as <-.
        cbn [map]. now rewrite (Hx _ _ Ht), (IH _ eq_refl). }
    cbn [rbind] in H. injection H as <-. now rewrite E.
Qed.

Lemma dumps_Ok (py : interpreter) (v : value) (s : string) :
  dumps py v = Ok s -> s = render v.
Proof. apply dumps_at_Ok. Qed.

(** The error document is always within the limits. *)
Lemma dumps_error_payload_Ok (py : interpreter) (msg : str) :
  dumps py (error_payload msg) = Ok (render (error_payload msg)).
Proof. reflexivity. Qed.

(** So is an array of records whose fields are strings. *)
Lemma dumps_string_record_Ok (py : interpreter) (t u s : str) :
  dumps py (PyList [search_record (PyStr t) (PyStr u) (PyStr s)]) =
  Ok (render (PyList [search_record (PyStr t) (PyStr u) (PyStr s)])).
Proof. reflexivity. Qed.

Lemma accepts_dumps (py : interpreter) (v : value) :
  accepts py v = true -> dumps py v = Ok (render v).
Proof.
  unfold accepts. destruct (dumps py v) as [s|e] eqn:H; [|discriminate].
  intros _. now rewrite (dumps_Ok py v s H).
Qed.

Lemma print_json_accepted (py : interpreter) (v : value) (w : world) :
  accepts py v = true ->
  print_json py v w =
  (Ok tt, {| printed := (printed w ++ [v])%list; calls := calls w |}).
Proof.
  intro H. unfold print_json. now rewrite (accepts_dumps py v H).
Qed.

Lemma print_json_rejected (py : interpreter) (v : value) (w : world) (e : exn) :
  dumps py v = Raise e -> print_json py v w = (Raise e, w).
Proof. intro H. unfold print_json. now rewrite H. Qed.

(** ** The runs of the script *)

Ltac step_script :=
  unfold run, search, try_except_Exception, bind, call_text, lift,
    sys_exit, raise, ret, default_max_results.

Section Runs.

Variable py : interpreter.
Variable text : provider.
Variable prog : str.

(** With an argument after the program name the guard of [main] is
    passed and the query is built. *)
Lemma main_with_args (a : str) (rest : list str) (w : world) :
  main py text (prog :: a :: rest) w =
  (results <- search py text (query_of (a :: rest)) default_max_results ;;
   print_json py (PyList results)) w.
Proof.
  unfold main.
  replace (Z.of_nat (List.length (prog :: a :: rest)) <? 2)%Z with false.
  - reflexivity.
  - symmetry. apply Z.ltb_ge. cbn [List.length]. lia.
Qed.

Lemma run_no_query :
  run py text [prog] =
  Process [error_payload (lit "No query provided")] [] (Exit 1).
Proof. reflexivity. Qed.

(** Every run with an argument, by cases: on what the provider call
    does, on what the comprehension does, and on what [json.dumps] does
    with the records. *)
Lemma run_cases (a : str) (rest : list str) :
  let q := query_of (a :: rest) in
  let after (e : exn) :=
    match e with
    | Exception msg => Process [error_payload msg] [(q, 6%Z)] (Exit 1)
    | _ => Process [] [(q, 6%Z)] (uncaught e)
    end in
  run py text (prog :: a :: rest) =
  match text q 6%Z with
  | Fails e => after e
  | Returns it =>
      match comprehension it with
      | Raise e => after e
      | Ok out =>
          match dumps py (PyList out) with
          | Ok _ => Process [PyList out] [(q, 6%Z)] (Exit 0)
          | Raise e => Process [] [(q, 6%Z)] (uncaught e)
          end
      end
  end.
Proof.
  cbv zeta. unfold run. rewrite main_with_args. step_script.
  destruct (text _ _) as [it|[msg|code|msg]];
    [destruct (comprehension it) as [out|[msg|code|msg]]|..];
    try reflexivity.
  unfold print_json.
  destruct (dumps py (PyList out)) as [s|[msg|code|msg]]; reflexivity.
Qed.

Section WithArgs.

Variable a : str.
Variable rest : list str.

(** The call returns, every record is normalized and the array is
    encoded. *)
Lemma run_success (it : pyiter) (out : list value) :
  text (query_of (a :: rest)) 6%Z = Returns it ->
  comprehension it = Ok out ->
  accepts py (PyList out) = true ->
  run py text (prog :: a :: rest) =
  Process [PyList out] [(query_of (a :: rest), 6%Z)] (Exit 0).
Proof.
  intros Ht Hc Ha. rewrite run_cases, Ht, Hc.
  now rewrite (accepts_dumps py _ Ha).
Qed.

(** The call returns, every record is normalized and [json.dumps]
    raises on the array. *)
Lemma run_rejected (it : pyiter) (out : list value) (e : exn) :
  text (query_of (a :: rest)) 6%Z = Returns it ->
  comprehension it = Ok out ->
  dumps py (PyList out) = Raise e ->
  run py text (prog :: a :: rest) =
  Process [] [(query_of (a :: rest), 6%Z)] (uncaught e).
Proof.
  intros Ht Hc Hd. now rewrite run_cases, Ht, Hc, Hd.
Qed.

(** The call raises an [Exception]. *)
Lemma run_call_fails (msg : str) :
  text (query_of (a :: rest)) 6%Z = Fails (Exception msg) ->
  run py text (prog :: a :: rest) =
  Process [error_payload msg] [(query_of (a :: rest), 6%Z)] (Exit 1).
Proof.
  intros Ht. now rewrite run_cases, Ht.
Qed.


(** Whatever the provider does, it is called once, with the joined
    arguments and the limit 6. *)
Lemma run_queries :
  queries (run py text (prog :: a :: rest)) = [(query_of (a :: rest), 6%Z)].
Proof.
  rewrite run_cases.
  destruct (text _ _) as [it|[msg|code|msg]];
    [destruct (comprehension it) as [out|[msg|code|msg]];
     [destruct (dumps py (PyList out))|..]|..];
    reflexivity.
Qed.

(** An array on standard output comes from a call that returned and a
    comprehension that completed. *)
Lemma run_array_inv (out : list value) :
  output (run py text (prog :: a :: rest)) = [PyList out] ->
  exists it,
    text (query_of (a :: rest)) 6%Z = Returns it /\
    comprehension it = Ok out.
Proof.
  rewrite run_cases.
  destruct (text _ _) as [it|[msg|code|msg]] eqn:Ht;
    [destruct (comprehension it) as [o|[msg|code|msg]] eqn:Hc;
     [destruct (dumps py (PyList o))|..]|..];
    cbn; intro H; try discriminate.
  injection H as <-. eauto.
Qed.

End WithArgs.

(** The same facts, for any non-empty list of arguments. *)
Lemma run_success_dicts (args : list str) (ds : list dict) :
  args <> [] ->
  text (query_of args) 6%Z = Returns (iter_of (map PyDict ds)) ->
  accepts py (PyList (map normalize ds)) = true ->
  run py text (prog :: args) =
  Process [PyList (map normalize ds)] [(query_of args, 6%Z)] (Exit 0).
Proof.
  destruct args as [|a rest]; [congruence|]. intros _ Ht Ha.
  eapply run_success; [exact Ht | apply comprehension_dicts | exact Ha].
Qed.

Lemma run_array_dicts (args : list str) (out : list value) :
  output (run py text (prog :: args)) = [PyList out] ->
  args <> [] /\
  exists ds, text (query_of args) 6%Z = Returns (iter_of (map PyDict ds)) /\
             out = map normalize ds.
Proof.
  destruct args as [|a rest].
  - rewrite run_no_query. discriminate.
  - intro H. split; [discriminate|].
    destruct (run_array_inv _ _ _ H) as (it & Ht & Hc).
    destruct (comprehension_Ok_inv _ _ Hc) as (ds & -> & ->).
    eauto.
Qed.

(** An array that is printed was accepted by [json.dumps]. *)
Lemma run_array_accepted (args : list str) (out : list value) :
  output (run py text (prog :: args)) = [PyList out] ->
  accepts py (PyList out) = true.
Proof.
  destruct args as [|a rest].
  - rewrite run_no_query. discriminate.
  - rewrite run_cases. unfold accepts.
    destruct (text _ _) as [it|[msg|code|msg]] eqn:Ht;
      [destruct (comprehension it) as [o|[msg|code|msg]] eqn:Hc;
       [destruct (dumps py (PyList o)) eqn:Hd|..]|..];
      cbn [output uncaught]; intro H; try discriminate.
    injection H as <-. now rewrite Hd.
Qed.

End Runs.

Lemma run_short (py : interpreter) (text : provider) (argv : list str) :
  (List.length argv < 2)%nat ->
  run py text argv =
  Process [error_payload (lit "No query provided")] [] (Exit 1).
Proof.
  destruct argv as [|p [|a rest]]; cbn [List.length]; intro H;
    try reflexivity; lia.
Qed.

Lemma argv_cases (argv : list str) :
  (List.length argv < 2)%nat \/
  exists prog a rest, argv = prog :: a :: rest.
Proof.
  destruct argv as [|p [|a rest]]; cbn [List.length]; eauto; left; lia.
Qed.

(** A run prints nothing or one document. *)
Lemma run_output_cases
  (py : interpreter) (text : provider) (argv : list str) :
  output (run py text argv) = [] \/
  exists v, output (run py text argv) = [v].
Proof.
  destruct (argv_cases argv) as [Hs | (prog & a & rest & ->)].
  - rewrite (run_short py text argv Hs). right. now eexists.
  - rewrite run_cases.
    destruct (text _ _) as [it|[msg|code|msg]];
      [destruct (comprehension it) as [out|[msg|code|msg]];
       [destruct (dumps py (PyList out))|..]|..];
      cbn; auto; right; now eexists.
Qed.

(** Every document on standard output is one [json.dumps] returned on,
    with the text [render] gives: this is what [stdout] reads. *)
Lemma run_output_encoded
  (py : interpreter) (text : provider) (argv : list str) (v : value) :
  In v (output (run py text argv)) -> dumps py v = Ok (render v).
Proof.
  destruct (argv_cases argv) as [Hs | (prog & a & rest & ->)].
  - rewrite (run_short py text argv Hs). intros [<-|[]].
    apply dumps_error_payload_Ok.
  - rewrite run_cases.
    destruct (text _ _) as [it|[msg|code|msg]];
      [destruct (comprehension it) as [out|[msg|code|msg]];
       [destruct (dumps py (PyList out)) as [s|e] eqn:Hd|..]|..];
      cbn [output In]; intro H; try contradiction;
      destruct H as [<-|[]]; try apply dumps_error_payload_Ok.
    now rewrite Hd, (dumps_Ok py _ s Hd).
Qed.

(** ** Search records *)

Lemma normalize_keys (d : dict) :
  keys (normalize d) = [lit "title"; lit "url"; lit "snippet"].
Proof. reflexivity. Qed.

Lemma dict_get_from_field (d : dict) (k : str) :
  from_field d k (dict_get d k (PyStr (lit ""))).
Proof.
  unfold from_field, dict_get. now destruct (lookup d k).
Qed.

Lemma from_field_is_str (d : dict) (k : str) (x : value) :
  from_field d k x ->
  (forall v, lookup d k = Some v -> is_str v = true) ->
  is_str x = true.
Proof.
  unfold from_field. destruct (lookup d k) as [v|]; intros -> H.
  - now apply H.
  - reflexivity.
Qed.

Lemma normalize_present (d : dict) (t h b : value) :
  lookup d (lit "title") = Some t ->
  lookup d (lit "href") = Some h ->
  lookup d (lit "body") = Some b ->
  normalize d = search_record t h b.
Proof.
  intros Ht Hh Hb. unfold normalize, dict_get. now rewrite Ht, Hh, Hb.
Qed.

(** ** The text on standard output *)

Lemma stdout_one (v : value) (qs : list (str * Z)) (st : status) :
  stdout (Process [v] qs st) = render v ++ NEWLINE.
Proof. reflexivity. Qed.

Lemma append_assoc (a b c : string) : (a ++ b) ++ c = a ++ (b ++ c).
Proof. induction a as [|x a IH]; cbn; [reflexivity | now rewrite IH]. Qed.

Lemma render_error_payload (msg : str) :
  render (error_payload msg) = literal "{'error': " ++ encode_str msg ++ "}".
Proof.
  cbn. now rewrite append_assoc.
Qed.
(** ** The contract of the command line *)

(** *** Result length *)

(** C1 as stated does not hold: a provider that answers the call with
    seven records gets all seven printed; the array has length 7, not 6. *)
Lemma C1_seven_records_are_all_printed :
  Providers.seven (query_of [lit "news"]) 6%Z =
    Returns (iter_of (map PyDict Providers.seven_records)) /\
  List.length Providers.seven_records = 7%nat /\
  exists out,
    run Providers.cpython Providers.seven [Providers.prog; lit "news"] =
      Process [PyList out] [(lit "news", 6%Z)] (Exit 0) /\
    List.length out = 7%nat /\
    List.length out <> Nat.min 7 6.
Proof.
  split; [reflexivity|]. split; [reflexivity|].
  eexists. split; [vm_compute; reflexivity|].
  split; [reflexivity|]. cbn. discriminate.
Qed.

(** C1, amended: for a provider response of N records the printed array
    has length N, whatever N is: the limit 6 is handed to the provider as
    [max_results] and the script does not cut the response itself.  The
    array is printed whenever [json.dumps] accepts the records. *)
Theorem C1_array_length_is_response_length
  (py : interpreter) (text : provider) (prog : str) (args : list str)
  (ds : list dict) :
  args <> [] ->
  text (query_of args) 6%Z = Returns (iter_of (map PyDict ds)) ->
  queries (run py text (prog :: args)) = [(query_of args, 6%Z)] /\
  (forall out, output (run py text (prog :: args)) = [PyList out] ->
               List.length out = List.length ds) /\
  (accepts py (PyList (map normalize ds)) = true ->
   exists out, output (run py text (prog :: args)) = [PyList out] /\
               List.length out = List.length ds).
Proof.
  destruct args as [|a rest]; [congruence|]. intros _ Ht.
  split; [apply run_queries|]. split.
  - rewrite run_cases, Ht, comprehension_dicts.
    destruct (dumps py (PyList (map normalize ds))); cbn [output];
      intros out H; [|discriminate].
    injection H as <-. apply length_map.
  - intro Ha.
    rewrite (run_success_dicts py text prog (a :: rest) ds
               ltac:(discriminate) Ht Ha).
    exists (map normalize ds). split; [reflexivity | apply length_map].
Qed.

Lemma C1_array_length_witness :
  [lit "news"] <> [] /\
  Providers.seven (query_of [lit "news"]) 6%Z =
    Returns (iter_of (map PyDict Providers.seven_records)) /\
  queries (run Providers.cpython Providers.seven [Providers.prog; lit "news"])
    = [(query_of [lit "news"], 6%Z)] /\
  (forall out,
     output (run Providers.cpython Providers.seven
               [Providers.prog; lit "news"]) = [PyList out] ->
     List.length out = List.length Providers.seven_records) /\
  (accepts Providers.cpython
     (PyList (map normalize Providers.seven_records)) = true ->
   exists out,
     output (run Providers.cpython Providers.seven
               [Providers.prog; lit "news"]) = [PyList out] /\
     List.length out = List.length Providers.seven_records).
Proof.
  split; [discriminate|]. split; [reflexivity|].
  apply (C1_array_length_is_response_length
           Providers.cpython Providers.seven Providers.prog [lit "news"]
           Providers.seven_records);
    [discriminate | reflexivity].
Defined.

(** *** Failures *)




(** C3: with no argument after the program name the process prints the
    document with the key error and the text No query provided, ends with
    exit code 1, and makes no provider call. *)
Theorem C3_no_arguments (py : interpreter) (text : provider) (prog : str) :
  run py text [prog] =
    Process [error_payload (lit "No query provided")] [] (Exit 1) /\
  queries (run py text [prog]) = [] /\
  stdout (run py text [prog]) =
    literal "{'error': 'No query provided'}" ++ NEWLINE.
Proof.
  rewrite run_no_query. repeat split.
Qed.

(** *** The shape of a record *)

(** C4 as stated does not hold: a provider record whose title is [None]
    is printed with the title null, which is not a string. *)
Lemma C4_null_title_is_printed :
  Providers.null_title (query_of [lit "cats"]) 6%Z =
    Returns (iter_of [PyDict [(lit "title", PyNone);
                              (lit "href", PyStr (lit "http://a"))]]) /\
  run Providers.cpython Providers.null_title [Providers.prog; lit "cats"] =
    Process
      [PyList [search_record PyNone (PyStr (lit "http://a")) (PyStr (lit ""))]]
      [(lit "cats", 6%Z)] (Exit 0) /\
  stdout (run Providers.cpython Providers.null_title
        [Providers.prog; lit "cats"]) =
    literal "[{'title': null, 'url': 'http://a', 'snippet': ''}]" ++ NEWLINE /\
  is_str PyNone = false.
Proof. repeat split. Qed.

(** C4, amended: every record of a printed array has exactly the three
    fields title, url and snippet, in this order.  Each carries, unchanged,
    the value the provider record has for title, href and body, and the
    empty string when the provider record lacks that field; it is
    therefore a string whenever the provider's value is one. *)
Theorem C4_record_fields
  (py : interpreter) (text : provider) (prog : str) (args : list str)
  (out : list value) (o : value) :
  output (run py text (prog :: args)) = [PyList out] ->
  In o out ->
  exists (d : dict) (t u s : value),
    (exists ds, text (query_of args) 6%Z = Returns (iter_of (map PyDict ds))
                /\ In d ds) /\
    o = search_record t u s /\
    keys o = [lit "title"; lit "url"; lit "snippet"] /\
    from_field d (lit "title") t /\
    from_field d (lit "href") u /\
    from_field d (lit "body") s /\
    ((forall k v, In k [lit "title"; lit "href"; lit "body"] ->
                  lookup d k = Some v -> is_str v = true) ->
     is_str t = true /\ is_str u = true /\ is_str s = true).
Proof.
  intros Hout Hin.
  destruct (run_array_dicts py text prog args out Hout) as (_ & ds & Ht & ->).
  apply in_map_iff in Hin. destruct Hin as (d & <- & Hd).
  exists d, (dict_get d (lit "title") (PyStr (lit ""))),
            (dict_get d (lit "href") (PyStr (lit ""))),
            (dict_get d (lit "body") (PyStr (lit ""))).
  split; [eauto|]. split; [reflexivity|]. split; [apply normalize_keys|].
  do 3 (split; [apply dict_get_from_field|]).
  intro Hstr.
  repeat split;
    (eapply from_field_is_str; [apply dict_get_from_field|]);
    intros v Hv; refine (Hstr _ v _ Hv); cbn; auto.
Qed.

Lemma C4_record_fields_witness :
  output (run Providers.cpython Providers.cats [Providers.prog; lit "cats"]) =
    [PyList [normalize Providers.cats_record]] /\
  In (normalize Providers.cats_record) [normalize Providers.cats_record] /\
  exists (d : dict) (t u s : value),
    (exists ds, Providers.cats (query_of [lit "cats"]) 6%Z =
                  Returns (iter_of (map PyDict ds)) /\ In d ds) /\
    normalize Providers.cats_record = search_record t u s /\
    keys (normalize Providers.cats_record) =
      [lit "title"; lit "url"; lit "snippet"] /\
    from_field d (lit "title") t /\
    from_field d (lit "href") u /\
    from_field d (lit "body") s /\
    ((forall k v, In k [lit "title"; lit "href"; lit "body"] ->
                  lookup d k = Some v -> is_str v = true) ->
     is_str t = true /\ is_str u = true /\ is_str s = true).
Proof.
  split; [reflexivity|]. split; [left; reflexivity|].
  apply (C4_record_fields Providers.cpython Providers.cats Providers.prog
        [lit "cats"]
           [normalize Providers.cats_record]);
    [reflexivity | left; reflexivity].
Defined.

(** *** The query *)

Lemma concat_repeat_space (n : nat) :
  List.concat (repeat (lit " ") n) = repeat SPACE n.
Proof.
  induction n as [|n IH]; [reflexivity|].
  cbn [repeat List.concat]. now rewrite IH.
Qed.

(** C5: for every non-empty argument list the provider is called with the
    arguments joined by single spaces: the first argument, then every
    further argument after one space. *)
Theorem C5_query_is_joined_arguments
  (py : interpreter) (text : provider) (prog a : str) (rest : list str) :
  queries (run py text (prog :: a :: rest)) = [(query_of (a :: rest), 6%Z)] /\
  query_of (a :: rest) =
    (a ++ List.concat (map (fun x => SPACE :: x) rest))%list /\
  query_of [lit "hello"; lit "world"] = lit "hello world".
Proof.
  split; [apply run_queries|]. split; [|reflexivity].
  unfold query_of. now rewrite join_spec.
Qed.

(** *** The mapping of the fields *)

(** C6: the title of an output record is the title of the provider
    record, its url is the provider's href and its snippet the provider's
    body: this holds of every array the process prints, and the array is
    printed whenever [json.dumps] accepts the records.  In particular,
    for the argument cats and a provider that answers with the one record
    of title A, href http://a and body b1, the process prints the array
    of the one record of title A, url http://a and snippet b1 and ends
    with exit code 0. *)
Theorem C6_record_mapping
  (py : interpreter) (text : provider) (prog : str) :
  (forall (args : list str) (ds : list dict) (i : nat) (d : dict)
          (t h b : value),
     text (query_of args) 6%Z = Returns (iter_of (map PyDict ds)) ->
     nth_error ds i = Some d ->
     lookup d (lit "title") = Some t ->
     lookup d (lit "href") = Some h ->
     lookup d (lit "body") = Some b ->
     (forall out,
        output (run py text (prog :: args)) = [PyList out] ->
        nth_error out i = Some (search_record t h b)) /\
     (args <> [] ->
      accepts py (PyList (map normalize ds)) = true ->
      output (run py text (prog :: args)) = [PyList (map normalize ds)])) /\
  (text (lit "cats") 6%Z =
     Returns (iter_of [PyDict [(lit "title", PyStr (lit "A"));
                               (lit "href", PyStr (lit "http://a"));
                               (lit "body", PyStr (lit "b1"))]]) ->
   run py text [prog; lit "cats"] =
     Process
       [PyList [search_record (PyStr (lit "A")) (PyStr (lit "http://a"))
                              (PyStr (lit "b1"))]]
       [(lit "cats", 6%Z)] (Exit 0) /\
   stdout (run py text [prog; lit "cats"]) =
     literal "[{'title': 'A', 'url': 'http://a', 'snippet': 'b1'}]"
     ++ NEWLINE).
Proof.
  split.
  - intros args ds i d t h b Ht Hi Lt Lh Lb. split.
    + intros out Hout.
      destruct args as [|a rest];
        [rewrite run_no_query in Hout; discriminate|].
      rewrite run_cases, Ht, comprehension_dicts in Hout.
      destruct (dumps py (PyList (map normalize ds)));
        cbn [output] in Hout; [|discriminate].
      injection Hout as <-.
      rewrite (map_nth_error normalize i ds Hi).
      now rewrite (normalize_present d t h b Lt Lh Lb).
    + intros Hargs Ha.
      now rewrite (run_success_dicts py text prog args ds Hargs Ht Ha).
  - intro Ht.
    rewrite (run_success_dicts py text prog [lit "cats"]
               [Providers.cats_record] ltac:(discriminate) Ht eq_refl).
    split; reflexivity.
Qed.

Lemma C6_record_mapping_witness :
  ((forall out,
      output (run Providers.cpython Providers.cats
                [Providers.prog; lit "cats"]) = [PyList out] ->
      nth_error out 0 =
        Some (search_record (PyStr (lit "A")) (PyStr (lit "http://a"))
                            (PyStr (lit "b1")))) /\
   output (run Providers.cpython Providers.cats [Providers.prog; lit "cats"])
     = [PyList (map normalize [Providers.cats_record])]) /\
  run Providers.cpython Providers.cats [Providers.prog; lit "cats"] =
    Process
      [PyList [search_record (PyStr (lit "A")) (PyStr (lit "http://a"))
                             (PyStr (lit "b1"))]]
      [(lit "cats", 6%Z)] (Exit 0) /\
  stdout (run Providers.cpython Providers.cats [Providers.prog; lit "cats"]) =
    literal "[{'title': 'A', 'url': 'http://a', 'snippet': 'b1'}]"
    ++ NEWLINE.
Proof.
  split.
  - destruct (proj1 (C6_record_mapping Providers.cpython Providers.cats
                       Providers.prog)
                [lit "cats"] [Providers.cats_record] 0%nat
                Providers.cats_record
                (PyStr (lit "A")) (PyStr (lit "http://a")) (PyStr (lit "b1"))
                eq_refl eq_refl eq_refl eq_refl eq_refl) as [Hmap Hout].
    split; [exact Hmap|].
    apply Hout; [discriminate | reflexivity].
  - apply (proj2 (C6_record_mapping Providers.cpython Providers.cats
                    Providers.prog)).
    reflexivity.
Defined.

(** *** Order *)

(** C7: on success the printed array follows the provider's order: it is
    as long as the provider's response and its i-th element is the record
    built from the i-th item of the response. *)
Theorem C7_order_is_preserved
  (py : interpreter) (text : provider) (prog : str) (args : list str)
  (out : list value) :
  output (run py text (prog :: args)) = [PyList out] ->
  exists items,
    text (query_of args) 6%Z = Returns (iter_of items) /\
    List.length out = List.length items /\
    forall (i : nat) (r : value),
      nth_error items i = Some r ->
      exists o, nth_error out i = Some o /\ record r = Ok o.
Proof.
  intro Hout.
  destruct (run_array_dicts py text prog args out Hout) as (_ & ds & Ht & ->).
  exists (map PyDict ds). split; [exact Ht|].
  split; [now rewrite !length_map|].
  intros i r Hi. rewrite nth_error_map in Hi.
  destruct (nth_error ds i) as [d|] eqn:Hd; [|discriminate].
  injection Hi as <-.
  exists (normalize d). split; [|apply record_dict].
  exact (map_nth_error normalize i ds Hd).
Qed.

Lemma C7_order_witness :
  output (run Providers.cpython Providers.seven [Providers.prog; lit "news"]) =
    [PyList (map normalize Providers.seven_records)] /\
  exists items,
    Providers.seven (query_of [lit "news"]) 6%Z = Returns (iter_of items) /\
    List.length (map normalize Providers.seven_records) = List.length items /\
    forall (i : nat) (r : value),
      nth_error items i = Some r ->
      exists o, nth_error (map normalize Providers.seven_records) i = Some o
                /\ record r = Ok o.
Proof.
  split; [reflexivity|].
  apply (C7_order_is_preserved Providers.cpython Providers.seven Providers.prog
        [lit "news"]).
  reflexivity.
Defined.

(** *** Success *)

(** C8 as stated does not hold: [json.dumps(results)] is outside the
    [try], and it raises on a record it cannot encode.  For a title that
    is a number of 4301 digits the provider call succeeds, yet nothing is
    printed and the process ends with the traceback of the [ValueError],
    not with exit code 0. *)
Lemma C8_huge_title_prints_nothing :
  Providers.huge_title (query_of [lit "cats"]) 6%Z =
    Returns (iter_of [PyDict Providers.huge_title_record]) /\
  run Providers.cpython Providers.huge_title [Providers.prog; lit "cats"] =
    Process [] [(lit "cats", 6%Z)] (Traceback (int_limit_error 4300)) /\
  stdout (run Providers.cpython Providers.huge_title
            [Providers.prog; lit "cats"]) = "".
Proof.
  split; [reflexivity|].
  assert (E : run Providers.cpython Providers.huge_title
                [Providers.prog; lit "cats"] =
              Process [] [(lit "cats", 6%Z)]
                (Traceback (int_limit_error 4300)))
    by (vm_compute; reflexivity).
  split; [exact E | now rewrite E].
Qed.

(** C8, amended: with a non-empty argument list, a provider call that
    succeeds with its list of records, and records that [json.dumps]
    accepts, the process prints the array of the search records, one per
    provider record, and ends with exit code 0. *)
Theorem C8_success_prints_array
  (py : interpreter) (text : provider) (prog : str) (args : list str)
  (ds : list dict) :
  args <> [] ->
  text (query_of args) 6%Z = Returns (iter_of (map PyDict ds)) ->
  accepts py (PyList (map normalize ds)) = true ->
  run py text (prog :: args) =
    Process [PyList (map normalize ds)] [(query_of args, 6%Z)] (Exit 0) /\
  dumps py (PyList (map normalize ds)) =
    Ok (render (PyList (map normalize ds))) /\
  stdout (run py text (prog :: args)) =
    render (PyList (map normalize ds)) ++ NEWLINE /\
  Forall2 (fun d o => record (PyDict d) = Ok o) ds (map normalize ds).
Proof.
  intros Hargs Ht Ha.
  rewrite (run_success_dicts py text prog args ds Hargs Ht Ha).
  split; [reflexivity|]. split; [exact (accepts_dumps py _ Ha)|].
  split; [apply stdout_one|].
  clear Ht Ha. induction ds as [|d ds IH]; constructor.
  - apply record_dict.
  - exact IH.
Qed.

Lemma C8_success_witness :
  [lit "news"] <> [] /\
  Providers.seven (query_of [lit "news"]) 6%Z =
    Returns (iter_of (map PyDict Providers.seven_records)) /\
  accepts Providers.cpython
    (PyList (map normalize Providers.seven_records)) = true /\
  run Providers.cpython Providers.seven [Providers.prog; lit "news"] =
    Process [PyList (map normalize Providers.seven_records)]
            [(query_of [lit "news"], 6%Z)] (Exit 0) /\
  dumps Providers.cpython (PyList (map normalize Providers.seven_records)) =
    Ok (render (PyList (map normalize Providers.seven_records))) /\
  stdout (run Providers.cpython Providers.seven [Providers.prog; lit "news"])
    = render (PyList (map normalize Providers.seven_records)) ++ NEWLINE /\
  Forall2 (fun d o => record (PyDict d) = Ok o)
          Providers.seven_records (map normalize Providers.seven_records).
Proof.
  split; [discriminate|]. split; [reflexivity|]. split; [reflexivity|].
  apply (C8_success_prints_array
           Providers.cpython Providers.seven Providers.prog [lit "news"]
           Providers.seven_records);
    [discriminate | reflexivity | reflexivity].
Defined.

(** *** Failures while the records are read *)




(** *** The guard on the arguments *)

(** C10: the failure No query provided, with no provider call, occurs if
    and only if there is no argument after the program name.  Arguments
    that are all empty strings pass the guard: the provider is called
    with the empty query for one of them, and with a query made of spaces
    only for several. *)
Theorem C10_no_query_iff_no_arguments
  (py : interpreter) (text : provider) (prog : str) (args : list str)
  (n : nat) :
  (run py text (prog :: args) =
     Process [error_payload (lit "No query provided")] [] (Exit 1)
   <-> args = []) /\
  (queries (run py text (prog :: args)) = [] <-> args = []) /\
  queries (run py text [prog; lit ""]) = [(lit "", 6%Z)] /\
  queries (run py text (prog :: repeat (lit "") (S n))) =
    [(repeat SPACE n, 6%Z)].
Proof.
  assert (Hq : queries (run py text (prog :: args)) = [] <-> args = []).
  { destruct args as [|a rest].
    - now rewrite run_no_query.
    - rewrite run_queries. split; discriminate. }
  split; [|split; [exact Hq|split]].
  - split.
    + intro H. apply Hq. now rewrite H.
    + intros ->. apply run_no_query.
  - apply (run_queries py text prog (lit "") []).
  - cbn [repeat]. rewrite run_queries. unfold query_of.
    change (lit "" :: repeat (lit "") n) with (repeat (@nil codepoint) (S n)).
    now rewrite join_empty_strings, concat_repeat_space.
Qed.

(** * Further properties of the script *)

(** ** Every run, by cases *)

(** X1: whatever the command line and whatever the provider does, a run
    prints at most one document and calls the provider at most once, and
    a call it makes has the joined arguments as its query and the limit
    6: nothing is retried and nothing is printed twice. *)
Theorem X1_at_most_one_document_and_one_call
  (py : interpreter) (text : provider) (argv : list str) :
  (List.length (output (run py text argv)) <= 1)%nat /\
  (List.length (queries (run py text argv)) <= 1)%nat /\
  forall call, In call (queries (run py text argv)) ->
               call = (query_of (skipn 1 argv), 6%Z).
Proof.
  destruct (argv_cases argv) as [Hs | (prog & a & rest & ->)].
  - rewrite (run_short py text argv Hs). cbn. repeat split; auto.
    intros call [].
  - rewrite run_cases. cbn [skipn].
    destruct (text _ _) as [it|[msg|code|msg]];
      [destruct (comprehension it) as [out|[msg|code|msg]];
       [destruct (dumps py (PyList out))|..]|..];
      cbn; (repeat split; [lia..|]); intros call [<-|[]]; reflexivity.
Qed.

(** X2: a caller can tell success from failure by the document alone:
    whatever a run prints is either an array of search records, and the
    exit code is then 0, or the error document, and the exit code is
    then 1. *)
Theorem X2_printed_document_decides_exit_code
  (py : interpreter) (text : provider) (argv : list str) (v : value) :
  In v (output (run py text argv)) ->
  (exists out, v = PyList out /\
               Forall (fun o => exists t u s, o = search_record t u s) out /\
               ended (run py text argv) = Exit 0) \/
  (exists msg, v = error_payload msg /\ ended (run py text argv) = Exit 1).
Proof.
  destruct (argv_cases argv) as [Hs | (prog & a & rest & ->)].
  - rewrite (run_short py text argv Hs). intros [<-|[]]. right. eauto.
  - rewrite run_cases.
    destruct (text _ _) as [it|[msg|code|msg]];
      [destruct (comprehension it) as [out|[msg|code|msg]] eqn:Hc;
       [destruct (dumps py (PyList out)) as [s|[msg|code|msg]]|..]|..];
      cbn; intro H; try contradiction; destruct H as [<-|[]];
      try (right; eauto; fail).
    left. exists out. repeat split.
    destruct (comprehension_Ok_inv _ _ Hc) as (ds & _ & ->).
    apply Forall_forall. intros o Ho.
    apply in_map_iff in Ho. destruct Ho as (d & <- & _).
    unfold normalize. eauto.
Qed.

Lemma X2_printed_document_witness :
  In (error_payload (lit "connection reset"))
     (output (run Providers.cpython Providers.lazy_failure
           [Providers.prog; lit "cats"])) /\
  ((exists out,
      error_payload (lit "connection reset") = PyList out /\
      Forall (fun o => exists t u s, o = search_record t u s) out /\
      ended (run Providers.cpython Providers.lazy_failure
            [Providers.prog; lit "cats"]) =
        Exit 0) \/
   (exists msg,
      error_payload (lit "connection reset") = error_payload msg /\
      ended (run Providers.cpython Providers.lazy_failure
            [Providers.prog; lit "cats"]) =
        Exit 1)).
Proof.
  split; [left; reflexivity|].
  apply (X2_printed_document_decides_exit_code Providers.cpython
           Providers.lazy_failure [Providers.prog; lit "cats"]).
  left; reflexivity.
Defined.

(** X3: [except Exception] does not catch what is outside class
    [Exception].  When the provider call, or the reading of its result
    after any number of good records, raises such an exception, nothing is
    printed, not even the error document; the process ends with the exit
    status of the code of a [SystemExit], which is the code modulo 256
    when it fits a C [long], and with a traceback otherwise. *)
Theorem X3_other_exceptions_are_not_reported
  (py : interpreter) (text : provider) (prog : str) (args : list str)
  (e : exn) :
  args <> [] ->
  is_Exception e = false ->
  (text (query_of args) 6%Z = Fails e \/
   exists ds, text (query_of args) 6%Z =
                Returns (yields (map PyDict ds) (Raises e))) ->
  run py text (prog :: args) =
  Process [] [(query_of args, 6%Z)] (uncaught e).
Proof.
  destruct args as [|a rest]; [congruence|]. intros _ He Ht.
  rewrite run_cases.
  destruct Ht as [-> | (ds & ->)]; [|rewrite comprehension_raises];
    destruct e; (discriminate || reflexivity).
Qed.

Lemma X3_other_exceptions_witness :
  (run Providers.cpython Providers.interrupted [Providers.prog; lit "cats"] =
     Process [] [(lit "cats", 6%Z)]
       (Traceback (BaseException (lit "KeyboardInterrupt")))) /\
  (run Providers.cpython Providers.exits [Providers.prog; lit "cats"] =
     Process [] [(lit "cats", 6%Z)] (Exit 3)) /\
  (run Providers.cpython Providers.exits_256 [Providers.prog; lit "cats"] =
     Process [] [(lit "cats", 6%Z)] (Exit 0)).
Proof.
  split; [|split].
  - apply (X3_other_exceptions_are_not_reported
             Providers.cpython Providers.interrupted Providers.prog
             [lit "cats"] (BaseException (lit "KeyboardInterrupt")));
      [discriminate | reflexivity | left; reflexivity].
  - apply (X3_other_exceptions_are_not_reported
             Providers.cpython Providers.exits Providers.prog [lit "cats"]
             (SystemExit 3));
      [discriminate | reflexivity |].
    right. exists [Providers.cats_record]. reflexivity.
  - apply (X3_other_exceptions_are_not_reported
             Providers.cpython Providers.exits_256 Providers.prog
             [lit "cats"] (SystemExit 256));
      [discriminate | reflexivity | left; reflexivity].
Defined.


(** What [json.dumps] raises is a [RecursionError] or the [ValueError] of
    the digit limit. *)
Lemma dumps_at_Raise (py : interpreter) (v : value) :
  forall (depth : nat) (e : exn),
    dumps_at py depth v = Raise e ->
    e = recursion_error \/ e = int_limit_error (max_str_digits py).
Proof.
  induction v as [ | b | z | x | l IHl | d IHd] using value_ind_nested;
    intros depth e H; cbn [dumps_at] in H.
  - discriminate.
  - destruct b; discriminate.
  - unfold encode_int in H.
    destruct ((0 <? max_str_digits py)%N && too_long (max_str_digits py) z);
      [|discriminate].
    injection H as <-. now right.
  - discriminate.
  - destruct depth as [|depth]; [injection H as <-; now left|].
    match type of H with
    | rbind ?items _ = _ => destruct items as [ts|e'] eqn:Hts
    end; [discriminate|].
    cbn [rbind] in H. injection H as ->.
    clear - IHl Hts.
    induction IHl as [|x l Hx _ IH]; [discriminate|].
    destruct (dumps_at py depth x) as [t|e'] eqn:Ht.
    + cbn [rbind] in Hts.
      match type of Hts with
      | rbind ?items _ = _ => destruct items as [ts'|e'] eqn:Hts'
      end; [discriminate|].
      cbn [rbind] in Hts. injection Hts as ->. now apply IH.
    + cbn [rbind] in Hts. injection Hts as ->. exact (Hx _ _ Ht).
  - destruct depth as [|depth]; [injection H as <-; now left|].
    match type of H with
    | rbind ?fields _ = _ => destruct fields as [ts|e'] eqn:Hts
    end; [discriminate|].
    cbn [rbind] in H. injection H as ->.
    clear - IHd Hts.
    induction IHd as [|[k x] d Hx _ IH]; [discriminate|].
    cbn [snd] in Hx.
    destruct (dumps_at py depth x) as [t|e'] eqn:Ht.
    + cbn [rbind] in Hts.
      match type of Hts with
      | rbind ?fields _ = _ => destruct fields as [ts'|e'] eqn:Hts'
      end; [discriminate|].
      cbn [rbind] in Hts. injection Hts as ->. now apply IH.
    + cbn [rbind] in Hts. injection Hts as ->. exact (Hx _ _ Ht).
Qed.

Lemma dumps_Raise_traceback (py : interpreter) (v : value) (e : exn) :
  dumps py v = Raise e -> uncaught e = Traceback e.
Proof.
  intro H. destruct (dumps_at_Raise py v _ e H) as [-> | ->]; reflexivity.
Qed.



(** X13: [print(json.dumps(results))] is outside the [try]: when the
    provider call and the reading of the records succeed and
    [json.dumps] raises on the array, because of a number with more
    digits than the interpreter converts or of a value nested too
    deeply, nothing is printed, no error document either, and the
    process ends with the traceback of that exception. *)
Theorem X13_unencodable_records_print_nothing
  (py : interpreter) (text : provider) (prog : str) (args : list str)
  (ds : list dict) (e : exn) :
  args <> [] ->
  text (query_of args) 6%Z = Returns (iter_of (map PyDict ds)) ->
  dumps py (PyList (map normalize ds)) = Raise e ->
  run py text (prog :: args) =
    Process [] [(query_of args, 6%Z)] (Traceback e) /\
  stdout (run py text (prog :: args)) = "" /\
  (e = recursion_error \/ e = int_limit_error (max_str_digits py)).
Proof.
  destruct args as [|a rest]; [congruence|]. intros _ Ht Hd.
  rewrite (run_rejected py text prog a rest _ _ e Ht
             (comprehension_dicts ds) Hd).
  rewrite (dumps_Raise_traceback py _ e Hd).
  repeat split. exact (dumps_at_Raise py _ _ e Hd).
Qed.

Lemma X13_unencodable_records_witness :
  [lit "cats"] <> [] /\
  dumps Providers.cpython
    (PyList (map normalize [Providers.huge_title_record])) =
    Raise (int_limit_error 4300) /\
  run Providers.cpython Providers.huge_title [Providers.prog; lit "cats"] =
    Process [] [(query_of [lit "cats"], 6%Z)]
      (Traceback (int_limit_error 4300)) /\
  stdout (run Providers.cpython Providers.huge_title
            [Providers.prog; lit "cats"]) = "" /\
  (int_limit_error 4300 = recursion_error \/
   int_limit_error 4300 = int_limit_error (max_str_digits Providers.cpython)).
Proof.
  split; [discriminate|].
  assert (Hd : dumps Providers.cpython
                 (PyList (map normalize [Providers.huge_title_record])) =
               Raise (int_limit_error 4300)) by (vm_compute; reflexivity).
  split; [exact Hd|].
  exact (X13_unencodable_records_print_nothing
           Providers.cpython Providers.huge_title Providers.prog [lit "cats"]
           [Providers.huge_title_record] (int_limit_error 4300)
           ltac:(discriminate) eq_refl Hd).
Defined.

(** ** The query *)

Lemma join_app (sep : str) (xs ys : list str) :
  xs <> [] -> ys <> [] ->
  join sep (xs ++ ys)%list = (join sep xs ++ sep ++ join sep ys)%list.
Proof.
  intros Hx Hy. induction xs as [|x xs IH]; [congruence|].
  destruct xs as [|x' xs].
  - destruct ys as [|y ys]; [congruence|]. reflexivity.
  - change ((x :: x' :: xs) ++ ys)%list with (x :: x' :: (xs ++ ys))%list.
    rewrite !join_cons.
    change (x' :: (xs ++ ys))%list with ((x' :: xs) ++ ys)%list.
    rewrite IH by discriminate. now rewrite <- !app_assoc.
Qed.

(** X5: the query does not record where one argument ends and the next
    begins: the query of two argument lists put together is the query of
    the first, one space, and the query of the second.  So an argument
    that contains a space gives the same query as its two halves passed
    as two arguments. *)
Theorem X5_query_of_concatenated_arguments (xs ys : list str) :
  xs <> [] -> ys <> [] ->
  query_of (xs ++ ys)%list = (query_of xs ++ SPACE :: query_of ys)%list /\
  forall a b : str,
    query_of (xs ++ [(a ++ SPACE :: b)%list] ++ ys)%list =
    query_of (xs ++ [a; b] ++ ys)%list.
Proof.
  intros Hx Hy. unfold query_of. split.
  - now rewrite (join_app _ xs ys Hx Hy).
  - intros a b.
    rewrite !(join_app _ xs) by (auto; discriminate).
    rewrite (join_app _ [_] ys), (join_app _ [a; b] ys) by (auto; discriminate).
    cbn [join]. now rewrite <- !app_assoc.
Qed.

Lemma X5_query_of_concatenated_witness :
  [lit "best"] <> [] /\ [lit "pizza"] <> [] /\
  query_of ([lit "best"] ++ [lit "pizza"])%list =
    (query_of [lit "best"] ++ SPACE :: query_of [lit "pizza"])%list /\
  forall a b : str,
    query_of ([lit "best"] ++ [(a ++ SPACE :: b)%list] ++ [lit "pizza"])%list =
    query_of ([lit "best"] ++ [a; b] ++ [lit "pizza"])%list.
Proof.
  split; [discriminate|]. split; [discriminate|].
  apply (X5_query_of_concatenated_arguments [lit "best"] [lit "pizza"]);
    discriminate.
Defined.

(** X6: a run depends on its command line through the query only: the
    program name plays no part, and two non-empty argument lists with the
    same query give the same output, the same provider call and the same
    exit code. *)
Theorem X6_run_depends_on_query_only
  (py : interpreter) (text : provider) (prog1 prog2 : str)
  (args1 args2 : list str) :
  args1 <> [] -> args2 <> [] ->
  query_of args1 = query_of args2 ->
  run py text (prog1 :: args1) = run py text (prog2 :: args2).
Proof.
  destruct args1 as [|a1 r1]; [congruence|].
  destruct args2 as [|a2 r2]; [congruence|].
  intros _ _ Hq. rewrite !run_cases. now rewrite Hq.
Qed.

Lemma X6_run_depends_on_query_witness :
  [lit "hello world"] <> [] /\ [lit "hello"; lit "world"] <> [] /\
  query_of [lit "hello world"] = query_of [lit "hello"; lit "world"] /\
  run Providers.cpython Providers.echo [lit "search.py"; lit "hello world"] =
  run Providers.cpython Providers.echo
        [lit "./search.py"; lit "hello"; lit "world"].
Proof.
  split; [discriminate|]. split; [discriminate|]. split; [reflexivity|].
  apply (X6_run_depends_on_query_only Providers.cpython Providers.echo);
    [discriminate | discriminate | reflexivity].
Defined.

(** ** Edge cases of the response *)

(** X7: a provider that finds nothing is a success, not a failure: the
    process prints the empty array, as the two characters of an opening
    and a closing bracket, and ends with exit code 0. *)
Theorem X7_empty_response_prints_empty_array
  (py : interpreter) (text : provider) (prog : str) (args : list str) :
  args <> [] ->
  text (query_of args) 6%Z = Returns Stop ->
  run py text (prog :: args) =
    Process [PyList []] [(query_of args, 6%Z)] (Exit 0) /\
  stdout (run py text (prog :: args)) = "[]" ++ NEWLINE.
Proof.
  intros Hargs Ht.
  rewrite (run_success_dicts py text prog args [] Hargs Ht eq_refl).
  split; reflexivity.
Qed.

Lemma X7_empty_response_witness :
  [lit "zzzz"] <> [] /\
  Providers.nothing (query_of [lit "zzzz"]) 6%Z = Returns Stop /\
  run Providers.cpython Providers.nothing [Providers.prog; lit "zzzz"] =
    Process [PyList []] [(query_of [lit "zzzz"], 6%Z)] (Exit 0) /\
  stdout (run Providers.cpython Providers.nothing
        [Providers.prog; lit "zzzz"]) =
    "[]" ++ NEWLINE.
Proof.
  split; [discriminate|]. split; [reflexivity|].
  apply (X7_empty_response_prints_empty_array Providers.cpython
           Providers.nothing Providers.prog [lit "zzzz"]);
    [discriminate | reflexivity].
Defined.

(** X8: the records are read in order and the first item that is not a
    dict ends the reading: its [AttributeError] is the one reported,
    whatever the good records before it and whatever follows it, which is
    never looked at. *)
Theorem X8_first_bad_item_is_reported
  (py : interpreter) (text : provider) (prog : str) (args : list str)
  (ds : list dict) (r : value) (rest : pyiter) :
  args <> [] ->
  is_dict r = false ->
  text (query_of args) 6%Z = Returns (yields (map PyDict ds) (Yield r rest)) ->
  run py text (prog :: args) =
    Process
      [error_payload
         (lit ("'" ++ type_name r ++ "' object has no attribute 'get'"))]
      [(query_of args, 6%Z)] (Exit 1).
Proof.
  destruct args as [|a rs]; [congruence|]. intros _ Hr Ht.
  rewrite run_cases, Ht, (comprehension_bad_item ds r rest Hr).
  reflexivity.
Qed.

Lemma X8_first_bad_item_witness :
  [lit "cats"] <> [] /\ is_dict (PyInt 7) = false /\
  run Providers.cpython Providers.doubly_malformed
        [Providers.prog; lit "cats"] =
    Process [error_payload (lit "'int' object has no attribute 'get'")]
            [(lit "cats", 6%Z)] (Exit 1).
Proof.
  split; [discriminate|]. split; [reflexivity|].
  apply (X8_first_bad_item_is_reported Providers.cpython
           Providers.doubly_malformed Providers.prog [lit "cats"]
           [Providers.cats_record] (PyInt 7)
           (Yield PyNone (Raises (SystemExit 3))));
    [discriminate | reflexivity | reflexivity].
Defined.

(** ** [search] as a function *)


(** ** The text on standard output *)

Lemma all_chars_app (p : ascii -> bool) (a b : string) :
  all_chars p (a ++ b) = all_chars p a && all_chars p b.
Proof.
  induction a as [|x a IH]; cbn; [reflexivity|].
  now rewrite IH, andb_assoc.
Qed.

Lemma all_chars_concat (p : ascii -> bool) (sep : string) (l : list string) :
  all_chars p sep = true ->
  Forall (fun s => all_chars p s = true) l ->
  all_chars p (String.concat sep l) = true.
Proof.
  intros Hsep Hl. induction Hl as [|s l Hs Hl IH]; [reflexivity|].
  cbn [String.concat]. destruct l as [|s' l]; [exact Hs|].
  now rewrite !all_chars_app, Hs, Hsep, IH.
Qed.

Lemma hex_digit_printable (n : N) :
  (n < 16)%N -> printable (hex_digit n) = true.
Proof.
  intro H.
  assert (A : forallb (fun k => printable (hex_digit (N.of_nat k)))
                      (seq 0 16) = true) by reflexivity.
  rewrite forallb_forall in A.
  rewrite <- (N2Nat.id n). apply A. apply in_seq. lia.
Qed.

Lemma land_15_lt (n : N) : (N.land n 15 < 16)%N.
Proof.
  change 15%N with (N.ones 4). rewrite N.land_ones.
  apply N.mod_lt. discriminate.
Qed.

Lemma u_escape_printable (n : N) : all_chars printable (u_escape n) = true.
Proof.
  unfold u_escape, hex4. cbn [all_chars].
  rewrite !hex_digit_printable by apply land_15_lt. reflexivity.
Qed.

Lemma printable_ascii_of_N (c : N) :
  (32 <= c)%N -> (c <= 126)%N -> printable (ascii_of_N c) = true.
Proof.
  intros Hlo Hhi. unfold printable.
  rewrite N_ascii_embedding by lia.
  apply andb_true_iff. split; now apply N.leb_le.
Qed.

Lemma escape_printable (c : codepoint) :
  all_chars printable (escape c) = true.
Proof.
  unfold escape.
  repeat (match goal with
          | |- context [if ?b then _ else _] => destruct b eqn:?
          end; try reflexivity).
  - apply andb_true_iff in Heqb6. destruct Heqb6 as [Hlo Hhi].
    apply N.leb_le in Hlo, Hhi. cbn [chr all_chars].
    now rewrite printable_ascii_of_N.
  - apply u_escape_printable.
  - cbv zeta. now rewrite all_chars_app, !u_escape_printable.
Qed.

Lemma encode_str_printable (s : str) :
  all_chars printable (encode_str s) = true.
Proof.
  unfold encode_str. rewrite !all_chars_app.
  rewrite all_chars_concat; [reflexivity | reflexivity |].
  apply Forall_forall. intros x Hx.
  apply in_map_iff in Hx. destruct Hx as (c & <- & _).
  apply escape_printable.
Qed.

Lemma digits_printable (d : Decimal.uint) :
  all_chars printable (NilEmpty.string_of_uint d) = true.
Proof.
  induction d as [|d IH|d IH|d IH|d IH|d IH|d IH|d IH|d IH|d IH|d IH];
    cbn [NilEmpty.string_of_uint all_chars]; rewrite ?IH; reflexivity.
Qed.

Lemma string_of_uint_printable (d : Decimal.uint) :
  all_chars printable (NilZero.string_of_uint d) = true.
Proof.
  destruct d; try apply digits_printable. reflexivity.
Qed.

Lemma render_int_printable (z : Z) :
  all_chars printable (render_int z) = true.
Proof.
  unfold render_int.
  destruct (Z.to_int z) as [d|d]; cbn [NilZero.string_of_int all_chars];
    rewrite string_of_uint_printable; reflexivity.
Qed.

Lemma render_printable (v : value) : all_chars printable (render v) = true.
Proof.
  induction v as [ | b | z | s | l IHl | d IHd] using value_ind_nested.
  - reflexivity.
  - now destruct b.
  - apply render_int_printable.
  - apply encode_str_printable.
  - cbn [render]. rewrite !all_chars_app.
    rewrite all_chars_concat; [reflexivity | reflexivity |].
    apply Forall_forall. intros x Hx.
    apply in_map_iff in Hx. destruct Hx as (y & <- & Hy).
    rewrite Forall_forall in IHl. now apply IHl.
  - cbn [render]. rewrite !all_chars_app.
    rewrite all_chars_concat; [reflexivity | reflexivity |].
    apply Forall_forall. intros x Hx.
    apply in_map_iff in Hx. destruct Hx as ([k y] & <- & Hy).
    rewrite Forall_forall in IHd. specialize (IHd _ Hy). cbn [snd] in IHd.
    now rewrite !all_chars_app, encode_str_printable, IHd.
Qed.

(** X10: standard output is never more than one line of printable ASCII:
    whatever the provider returns or raises and whatever the arguments
    are, a run writes either nothing or one line ended by a newline, and
    every character of that line lies between the space and the tilde;
    line breaks, control characters and characters outside ASCII in a
    title or in an error message are written as escapes. *)
Theorem X10_stdout_is_one_ascii_line
  (py : interpreter) (text : provider) (argv : list str) :
  stdout (run py text argv) = "" \/
  exists line,
    stdout (run py text argv) = line ++ NEWLINE /\
    all_chars printable line = true.
Proof.
  unfold stdout.
  destruct (run_output_cases py text argv) as [-> | (v & ->)].
  - now left.
  - right. exists (render v). split; [|apply render_printable].
    cbn [map String.concat]. reflexivity.
Qed.

Lemma append_nil_r (s : string) : s ++ "" = s.
Proof. induction s as [|a s IH]; cbn; [reflexivity | now rewrite IH]. Qed.

Lemma concat_empty_cons (x : string) (l : list string) :
  String.concat "" (x :: l) = x ++ String.concat "" l.
Proof.
  destruct l as [|y l]; cbn [String.concat].
  - now rewrite append_nil_r.
  - reflexivity.
Qed.

Lemma escape_plain (c : codepoint) :
  plain c = true -> escape c = chr (ascii_of_N c).
Proof.
  unfold plain. rewrite !andb_true_iff, !negb_true_iff.
  intros [[[Hlo Hhi] Hq] Hb]. pose proof Hlo as Hlo'.
  apply N.leb_le in Hlo'.
  unfold escape. rewrite Hq, Hb.
  replace (c =? 8)%N with false by (symmetry; apply N.eqb_neq; lia).
  replace (c =? 12)%N with false by (symmetry; apply N.eqb_neq; lia).
  replace (c =? 10)%N with false by (symmetry; apply N.eqb_neq; lia).
  replace (c =? 13)%N with false by (symmetry; apply N.eqb_neq; lia).
  replace (c =? 9)%N with false by (symmetry; apply N.eqb_neq; lia).
  now rewrite Hlo, Hhi.
Qed.

(** A [str] of plain characters is written as it is, between quotes. *)
Lemma encode_str_plain (s : str) :
  forallb plain s = true ->
  encode_str s = chr DQUOTE ++ ascii_text s ++ chr DQUOTE.
Proof.
  intro H. unfold encode_str. f_equal. f_equal.
  induction s as [|c s IH]; [reflexivity|].
  cbn [forallb] in H. apply andb_true_iff in H. destruct H as [Hc Hs].
  cbn [map]. rewrite concat_empty_cons, (escape_plain c Hc), (IH Hs).
  reflexivity.
Qed.

(** X11: an error message made of printable ASCII characters other than
    the double quote and the backslash reaches standard output letter for
    letter: the line is the message between the fixed opening and closing
    text of the error document, with nothing escaped. *)
Theorem X11_plain_error_message_is_printed_as_it_is
  (py : interpreter) (text : provider) (prog : str) (args : list str)
  (msg : str) :
  args <> [] ->
  forallb plain msg = true ->
  text (query_of args) 6%Z = Fails (Exception msg) ->
  stdout (run py text (prog :: args)) =
  (literal "{'error': '" ++ ascii_text msg ++ literal "'}") ++ NEWLINE.
Proof.
  destruct args as [|a rest]; [congruence|]. intros _ Hp Ht.
  rewrite (run_call_fails py text prog a rest msg Ht), stdout_one.
  rewrite render_error_payload, (encode_str_plain msg Hp).
  change (literal "{'error': '") with (literal "{'error': " ++ chr DQUOTE).
  change (literal "'}") with (chr DQUOTE ++ "}").
  now rewrite !append_assoc.
Qed.

Lemma X11_plain_error_message_witness :
  [lit "cats"] <> [] /\
  forallb plain (lit "operation timed out") = true /\
  stdout (run Providers.cpython Providers.timed_out
        [Providers.prog; lit "cats"]) =
  (literal "{'error': '" ++ "operation timed out" ++ literal "'}") ++ NEWLINE.
Proof.
  split; [discriminate|]. split; [reflexivity|].
  apply (X11_plain_error_message_is_printed_as_it_is Providers.cpython
           Providers.timed_out Providers.prog [lit "cats"]
           (lit "operation timed out"));
    [discriminate | reflexivity | reflexivity].
Defined.

(** X12: on standard output a search record is written with its keys in
    the order title, url, snippet, a colon and a space after each key and
    a comma and a space between the fields.  For a one-record response
    whose title, href and body are plain strings the line is exactly
    that, with the three strings unchanged between quotes. *)
Theorem X12_text_of_a_plain_record
  (py : interpreter) (text : provider) (prog : str) (args : list str)
  (d : dict) (t h b : str) :
  args <> [] ->
  text (query_of args) 6%Z = Returns (iter_of [PyDict d]) ->
  lookup d (lit "title") = Some (PyStr t) ->
  lookup d (lit "href") = Some (PyStr h) ->
  lookup d (lit "body") = Some (PyStr b) ->
  forallb plain t = true ->
  forallb plain h = true ->
  forallb plain b = true ->
  stdout (run py text (prog :: args)) =
  (literal "[{'title': '" ++ ascii_text t ++
   literal "', 'url': '" ++ ascii_text h ++
   literal "', 'snippet': '" ++ ascii_text b ++
   literal "'}]") ++ NEWLINE.
Proof.
  intros Hargs Ht Lt Lh Lb Pt Ph Pb.
  assert (Ha : accepts py (PyList (map normalize [d])) = true).
  { cbn [map]. rewrite (normalize_present d _ _ _ Lt Lh Lb). reflexivity. }
  rewrite (run_success_dicts py text prog args [d] Hargs Ht Ha), stdout_one.
  cbn [map]. rewrite (normalize_present d _ _ _ Lt Lh Lb).
  unfold search_record. cbn [render map String.concat].
  rewrite (encode_str_plain t Pt), (encode_str_plain h Ph),
    (encode_str_plain b Pb).
  change (literal "[{'title': '")
    with ("[" ++ "{" ++ encode_str (lit "title") ++ ": " ++ chr DQUOTE).
  change (literal "', 'url': '")
    with (chr DQUOTE ++ ", " ++ encode_str (lit "url") ++ ": " ++ chr DQUOTE).
  change (literal "', 'snippet': '")
    with (chr DQUOTE ++ ", " ++ encode_str (lit "snippet") ++ ": "
          ++ chr DQUOTE).
  change (literal "'}]") with (chr DQUOTE ++ "}" ++ "]").
  now rewrite !append_assoc.
Qed.

Lemma X12_text_of_a_plain_record_witness :
  stdout (run Providers.cpython Providers.cats [Providers.prog; lit "cats"]) =
  (literal "[{'title': '" ++ "A" ++
   literal "', 'url': '" ++ "http://a" ++
   literal "', 'snippet': '" ++ "b1" ++
   literal "'}]") ++ NEWLINE.
Proof.
  apply (X12_text_of_a_plain_record Providers.cpython
           Providers.cats Providers.prog [lit "cats"] Providers.cats_record
           (lit "A") (lit "http://a") (lit "b1"));
    [discriminate | reflexivity..].
Defined.
